(** * Subscription verification strategies

    A shallow embedding of [app_services.users]: the two collaborator
    interfaces of the domain layer ([CoreApiClient], [FranchiseApiClient]),
    the application-layer contract [VerifySubscriptionInterface] and its two
    implementations, [VerifySubscriptionFranchise1] (direct) and
    [VerifySubscriptionFranchise2] (resolving).

    Python objects are modelled by the type [value]; a method call is a
    computation in a state-and-exception monad whose state carries the
    collaborators' own world and the log of the calls made to them. *)

From Stdlib Require Import ZArith.
From stdpp Require Import base strings list gmap.

Open Scope string_scope.
Open Scope list_scope.

(* ===================================================================== *)
(** ** Python values, equality, subscripting and exceptions *)
(* ===================================================================== *)

Module Py.

(** The objects that flow through [verify]: [None], booleans, integers,
    strings, UUIDs and dictionaries with string keys. *)
#[warnings="-register-all"]
Inductive value : Type :=
  | VNone
  | VBool (b : bool)
  | VInt (z : Z)
  | VStr (s : string)
  | VUuid (u : N)
  | VDict (d : gmap string value).

(** The exceptions a call can end with. [KeyError] and [TypeError] come
    from subscripting; [UpstreamError] stands for whatever else a
    collaborator raises. *)
Inductive exn : Type :=
  | KeyError (key : string)
  | TypeError
  | UpstreamError (name : string).

(** A call either returns an object or raises. *)
Inductive outcome (A : Type) : Type :=
  | Return (a : A)
  | Raise (e : exn).
Arguments Return {A} a.
Arguments Raise {A} e.

Definition all_true (m : gmap string bool) : bool :=
  map_fold (λ _ b acc, b && acc) true m.

(** [a == b]. Booleans compare equal to the integers 0 and 1; two
    dictionaries are equal when they have the same keys and equal values
    under each key; objects of unrelated types are different. *)
Fixpoint py_eq (a b : value) {struct a} : bool :=
  match a, b with
  | VNone, VNone => true
  | VBool x, VBool y => bool_decide (x = y)
  | VBool x, VInt y | VInt y, VBool x => bool_decide (Z.b2z x = y)
  | VInt x, VInt y => bool_decide (x = y)
  | VStr x, VStr y => bool_decide (x = y)
  | VUuid x, VUuid y => bool_decide (x = y)
  | VDict d1, VDict d2 =>
      all_true (merge (λ x y, match x, y with
                              | Some u, Some v => Some (py_eq u v)
                              | None, None => None
                              | _, _ => Some false
                              end) d1 d2)
  | _, _ => false
  end.

(** [a != b] *)
Definition py_ne (a b : value) : bool := negb (py_eq a b).

(** [a is None] *)
Definition is_none (a : value) : bool :=
  match a with VNone => true | _ => false end.

(** [obj[key]] for a string key: a dictionary without the key raises
    [KeyError]; the other objects of [value] do not support it. *)
Definition getitem (obj : value) (key : string) : outcome value :=
  match obj with
  | VDict d =>
      match d !! key with
      | Some v => Return v
      | None => Raise (KeyError key)
      end
  | _ => Raise TypeError
  end.

(** A dictionary display [{k1: v1, k2: v2, ...}]. *)
Definition dict (items : list (string * value)) : value :=
  VDict (list_to_map items).

End Py.
Export Py.

(* ===================================================================== *)
(** ** The computation monad: collaborator world, call log, exceptions *)
(* ===================================================================== *)

(** What the collaborators were asked, in order. *)
Inductive event : Type :=
  | CoreGetUserCoreInfo (user_id : value)
  | CoreVerifySubscription (subscription_id metadata : value)
  | FranchiseGetUserSubscriptionInfo (subscription_external_id : value).

Record state (W : Type) : Type := mkState {
  world : W;
  calls : list event
}.
Arguments mkState {W} _ _.
Arguments world {W} _.
Arguments calls {W} _.

Definition M (W A : Type) : Type := state W → outcome A * state W.

#[export] Instance M_ret {W} : MRet (M W) := λ A a st, (Return a, st).

#[export] Instance M_bind {W} : MBind (M W) := λ A B k m st,
  match m st with
  | (Return a, st') => k a st'
  | (Raise e, st') => (Raise e, st')
  end.

(** An outcome computed without touching the collaborators. *)
Definition lift {W A} (o : outcome A) : M W A := λ st, (o, st).

(** A call to a collaborator: the collaborator moves its own world and
    returns or raises; the call is logged either way. *)
Definition invoke {W} (ev : event) (method : W → outcome value * W)
  : M W value :=
  λ st, let '(r, w') := method (world st) in
        (r, mkState w' (calls st ++ [ev])).

(* ===================================================================== *)
(** ** Domain layer: the collaborator interfaces *)
(* ===================================================================== *)

(** [class CoreApiClient(abc.ABC)] *)
Record CoreApiClient (W : Type) : Type := {
  get_user_core_info : value → W → outcome value * W;
  verify_subscription : value → value → W → outcome value * W
}.
Arguments get_user_core_info {W} _ _ _.
Arguments verify_subscription {W} _ _ _ _.

(** [class FranchiseApiClient(abc.ABC)] *)
Record FranchiseApiClient (W : Type) : Type := {
  get_user_subscription_info : value → W → outcome value * W
}.
Arguments get_user_subscription_info {W} _ _ _.

(** [self.core_api_client.verify_subscription(subscription_id, metadata)] *)
Definition call_verify_subscription {W} (c : CoreApiClient W)
    (subscription_id metadata : value) : M W value :=
  invoke (CoreVerifySubscription subscription_id metadata)
         (verify_subscription c subscription_id metadata).

(** [self.franchise_api_client.get_user_subscription_info(external_id)] *)
Definition call_get_user_subscription_info {W} (f : FranchiseApiClient W)
    (subscription_external_id : value) : M W value :=
  invoke (FranchiseGetUserSubscriptionInfo subscription_external_id)
         (get_user_subscription_info f subscription_external_id).

(* ===================================================================== *)
(** ** Application layer: the contract and its two strategies *)
(* ===================================================================== *)

(** [class VerifySubscriptionInterface(abc.ABC)] *)
Class VerifySubscriptionInterface (W : Type) (T : Type) : Type := {
  verify : T → value → value → value → M W value
}.

Module VerifySubscriptionFranchise1.

(** [__init__] stores the one collaborator. *)
Record t (W : Type) : Type := new {
  core_api_client : CoreApiClient W
}.
Arguments new {W} _.
Arguments core_api_client {W} _.

Definition verify {W} (self : t W)
    (metadata subscription_id subscription_external_id : value)
  : M W value :=
  result ← call_verify_subscription (core_api_client self)
             subscription_id metadata;
  mret result.

End VerifySubscriptionFranchise1.

Module VerifySubscriptionFranchise2.

(** [__init__] stores the two collaborators. *)
Record t (W : Type) : Type := new {
  core_api_client : CoreApiClient W;
  franchise_api_client : FranchiseApiClient W
}.
Arguments new {W} _ _.
Arguments franchise_api_client {W} _.
Arguments core_api_client {W} _.

Definition not_found : value :=
  dict [("status", VStr "error");
        ("message", VStr "User subscription not found")].

Definition not_active : value :=
  dict [("status", VStr "error");
        ("message", VStr "User subscription is not active")].

Definition id_not_found : value :=
  dict [("status", VStr "error");
        ("message", VStr "Subscription id not found")].

Definition verify {W} (self : t W)
    (metadata subscription_id subscription_external_id : value)
  : M W value :=
  user_subscription_info ←
    call_get_user_subscription_info (franchise_api_client self)
      subscription_external_id;
  if is_none user_subscription_info then mret not_found else
  status ← lift (getitem user_subscription_info "status");
  if py_ne status (VStr "active") then mret not_active else
  subscription_id ← lift (getitem user_subscription_info "id");
  if is_none subscription_id then mret id_not_found else
  call_verify_subscription (core_api_client self) subscription_id metadata.

End VerifySubscriptionFranchise2.

#[export] Instance franchise1_strategy {W} :
  VerifySubscriptionInterface W (VerifySubscriptionFranchise1.t W) :=
  {| verify := VerifySubscriptionFranchise1.verify |}.

#[export] Instance franchise2_strategy {W} :
  VerifySubscriptionInterface W (VerifySubscriptionFranchise2.t W) :=
  {| verify := VerifySubscriptionFranchise2.verify |}.

(** Short names for the two implementations of [verify] and for the
    collaborators held by a resolving strategy. *)
Abbreviation verify1 := VerifySubscriptionFranchise1.verify.
Abbreviation verify2 := VerifySubscriptionFranchise2.verify.
Abbreviation core_of := VerifySubscriptionFranchise2.core_api_client.
Abbreviation franchise_of := VerifySubscriptionFranchise2.franchise_api_client.

(* ===================================================================== *)
(** ** Observations on a run *)
(* ===================================================================== *)

(** The calls a computation adds to the log when run from [st]. *)
Definition calls_made {W A} (m : M W A) (st : state W) : list event :=
  drop (length (calls st)) (calls (m st).2).

(** The state right after the franchise client answered. *)
Definition asked {W} (st : state W) (ext : value) (w1 : W) : state W :=
  mkState w1 (calls st ++ [FranchiseGetUserSubscriptionInfo ext]).

(** The state reached after [n] runs of [m] in a row. *)
Definition after_runs {W A} (n : nat) (m : M W A) (st : state W) : state W :=
  Nat.iter n (λ s, (m s).2) st.

(** A collaborator is deterministic when what it returns or raises is a
    function of its arguments alone, whatever its own world is. *)
Definition deterministic_core {W} (c : CoreApiClient W) : Prop :=
  ∀ subscription_id metadata w w',
    (verify_subscription c subscription_id metadata w).1
    = (verify_subscription c subscription_id metadata w').1.

Definition deterministic_franchise {W} (f : FranchiseApiClient W) : Prop :=
  ∀ subscription_external_id w w',
    (get_user_subscription_info f subscription_external_id w).1
    = (get_user_subscription_info f subscription_external_id w').1.

(* ===================================================================== *)
(** ** The validation policy of the resolving strategy, as specified *)
(* ===================================================================== *)

Module Policy.

(** The three validation checks, in the order the specification lists
    them. *)
Inductive check : Type := Existence | ActiveStatus | IdPresence.

Definition order : list check := [Existence; ActiveStatus; IdPresence].

(** One check evaluated on its own on the franchise client's answer:
    [Return true] when the check fails, [Return false] when it passes. *)
Definition fails (c : check) (info : value) : outcome bool :=
  match c with
  | Existence => Return (is_none info)
  | ActiveStatus =>
      match getitem info "status" with
      | Return status => Return (py_ne status (VStr "active"))
      | Raise e => Raise e
      end
  | IdPresence =>
      match getitem info "id" with
      | Return subscription_id => Return (is_none subscription_id)
      | Raise e => Raise e
      end
  end.

(** The local error result of each check. *)
Definition error_of (c : check) : value :=
  match c with
  | Existence => VerifySubscriptionFranchise2.not_found
  | ActiveStatus => VerifySubscriptionFranchise2.not_active
  | IdPresence => VerifySubscriptionFranchise2.id_not_found
  end.

(** Short-circuit evaluation: the checks of [cs] are tried from the left
    and the scan stops at the first one that does not pass. *)
Fixpoint first_failing (cs : list check) (info : value)
  : outcome (option check) :=
  match cs with
  | [] => Return None
  | c :: cs' =>
      match fails c info with
      | Raise e => Raise e
      | Return true => Return (Some c)
      | Return false => first_failing cs' info
      end
  end.

End Policy.

(* ===================================================================== *)
(** ** Stub collaborators *)
(* ===================================================================== *)

Module Stub.

(** The stubs' world counts the calls they have served; their answers do
    not depend on it. *)
Definition world : Type := nat.

Definition subscriptions : gmap string value :=
  list_to_map
    [("ext-42", dict [("status", VStr "active"); ("id", VStr "sub-7")]);
     ("ext-null", dict [("status", VStr "active"); ("id", VNone)]);
     ("ext-noid", dict [("status", VStr "active")]);
     ("ext-nostatus", dict [("id", VStr "sub-7")]);
     ("ext-cancelled", dict [("status", VStr "cancelled"); ("id", VNone)]);
     ("ext-expired", dict [("status", VStr "expired"); ("id", VStr "sub-9")]);
     ("ext-blank", dict [("status", VStr ""); ("id", VStr "sub-9")])].

Definition franchise : FranchiseApiClient world :=
  {| get_user_subscription_info := λ subscription_external_id w,
       (Return match subscription_external_id with
               | VStr e => default VNone (subscriptions !! e)
               | _ => VNone
               end, S w) |}.

Definition gold : value := dict [("plan", VStr "gold")].

Definition ok : value := dict [("status", VStr "ok")].

Definition rejected : value := dict [("status", VStr "rejected")].

Definition core : CoreApiClient world :=
  {| get_user_core_info := λ user_id w, (Return (dict []), S w);
     verify_subscription := λ subscription_id metadata w,
       (Return (if py_eq subscription_id (VStr "sub-7") && py_eq metadata gold
                then ok else rejected), S w) |}.

Definition direct : VerifySubscriptionFranchise1.t world :=
  VerifySubscriptionFranchise1.new core.

Definition resolving : VerifySubscriptionFranchise2.t world :=
  VerifySubscriptionFranchise2.new core franchise.

Definition start : state world := mkState 0 [].

End Stub.

(** Franchise clients with one canned outcome, whatever they are asked. *)
Module Canned.

Definition franchise (answer : outcome value) : FranchiseApiClient Stub.world :=
  {| get_user_subscription_info := λ subscription_external_id w,
       (answer, S w) |}.

Definition resolving (answer : outcome value)
  : VerifySubscriptionFranchise2.t Stub.world :=
  VerifySubscriptionFranchise2.new Stub.core (franchise answer).

(** The record of "ext-42" with fields the strategy has no use for. *)
Definition verbose : value :=
  dict [("status", VStr "active"); ("id", VStr "sub-7");
        ("plan", VStr "gold"); ("renewals", VInt 3)].

End Canned.

(* ===================================================================== *)
(** ** Basic facts about values and runs *)
(* ===================================================================== *)

Lemma py_eq_str (v : value) (s : string) :
  py_eq v (VStr s) = true ↔ v = VStr s.
Proof.
  destruct v; simpl; try (split; [discriminate | congruence]).
  rewrite bool_decide_eq_true. split; congruence.
Qed.

Lemma py_ne_active (v : value) :
  py_ne v (VStr "active") = true ↔ v ≠ VStr "active".
Proof.
  unfold py_ne. rewrite negb_true_iff, <- not_true_iff_false.
  by rewrite py_eq_str.
Qed.

Lemma py_ne_active_false (v : value) :
  py_ne v (VStr "active") = false ↔ v = VStr "active".
Proof.
  unfold py_ne. by rewrite negb_false_iff, py_eq_str.
Qed.

Lemma is_none_true (v : value) : is_none v = true ↔ v = VNone.
Proof. destruct v; simpl; split; congruence. Qed.

Lemma is_none_false (v : value) : is_none v = false ↔ v ≠ VNone.
Proof. destruct v; simpl; split; congruence. Qed.

Lemma calls_made_asked {W A} (m : M W A) (st : state W) (r : outcome A)
    (ext : value) (w1 : W) :
  m st = (r, asked st ext w1) →
  calls_made m st = [FranchiseGetUserSubscriptionInfo ext].
Proof.
  unfold calls_made. intros ->. simpl. by rewrite drop_app_length.
Qed.

Lemma calls_made_app {W A} (m : M W A) (st : state W) (evs : list event) :
  calls (m st).2 = calls st ++ evs → calls_made m st = evs.
Proof.
  unfold calls_made. intros ->. by rewrite drop_app_length.
Qed.

Section Strategies.

Context {W : Type}.

(** The direct strategy, one step at a time. *)
Lemma direct_run (self : VerifySubscriptionFranchise1.t W)
    (md sid ext : value) (st : state W) :
  VerifySubscriptionFranchise1.verify self md sid ext st =
  let '(r, w1) :=
    verify_subscription (VerifySubscriptionFranchise1.core_api_client self)
      sid md (world st) in
  (r, mkState w1 (calls st ++ [CoreVerifySubscription sid md])).
Proof.
  unfold VerifySubscriptionFranchise1.verify, call_verify_subscription,
    invoke, mbind, M_bind, mret, M_ret.
  destruct (verify_subscription _ sid md (world st)) as [[r|e] w1]; done.
Qed.

(** The resolving strategy, one step at a time. *)
Lemma resolving_run (self : VerifySubscriptionFranchise2.t W)
    (md sid ext : value) (st : state W) :
  VerifySubscriptionFranchise2.verify self md sid ext st =
  let '(r, w1) :=
    get_user_subscription_info
      (VerifySubscriptionFranchise2.franchise_api_client self)
      ext (world st) in
  match r with
  | Raise e => (Raise e, asked st ext w1)
  | Return info =>
      if is_none info
      then (Return VerifySubscriptionFranchise2.not_found, asked st ext w1)
      else
        match getitem info "status" with
        | Raise e => (Raise e, asked st ext w1)
        | Return status =>
            if py_ne status (VStr "active")
            then (Return VerifySubscriptionFranchise2.not_active,
                  asked st ext w1)
            else
              match getitem info "id" with
              | Raise e => (Raise e, asked st ext w1)
              | Return i =>
                  if is_none i
                  then (Return VerifySubscriptionFranchise2.id_not_found,
                        asked st ext w1)
                  else
                    let '(r2, w2) :=
                      verify_subscription
                        (VerifySubscriptionFranchise2.core_api_client self)
                        i md w1 in
                    (r2, mkState w2
                           (calls st ++
                              [FranchiseGetUserSubscriptionInfo ext;
                               CoreVerifySubscription i md]))
              end
        end
  end.
Proof.
  unfold VerifySubscriptionFranchise2.verify, call_verify_subscription,
    call_get_user_subscription_info, invoke, lift, asked,
    mbind, M_bind, mret, M_ret.
  destruct (get_user_subscription_info _ ext (world st)) as [[info|e] w1];
    [|done].
  destruct (is_none info); [done|].
  destruct (getitem info "status") as [status|e]; [|done].
  destruct (py_ne status (VStr "active")); [done|].
  destruct (getitem info "id") as [i|e]; [|done].
  destruct (is_none i); [done|]. simpl.
  destruct (verify_subscription _ i md w1) as [r2 w2].
  by rewrite <- app_assoc.
Qed.

Lemma getitem_Return (v x : value) (k : string) :
  getitem v k = Return x ↔ ∃ d, v = VDict d ∧ d !! k = Some x.
Proof.
  split.
  - destruct v; simpl; try discriminate.
    destruct (d !! k) as [y|] eqn:E; [|discriminate].
    intros [= ->]. eauto.
  - intros (d & -> & E). simpl. by rewrite E.
Qed.

(** Every run of the resolving strategy logs the franchise call first and
    at most one core call after it. *)
Lemma resolving_calls (self : VerifySubscriptionFranchise2.t W)
    (md sid ext : value) (st : state W) :
  calls_made (verify2 self md sid ext) st
    = [FranchiseGetUserSubscriptionInfo ext]
  ∨ ∃ d i w1,
      get_user_subscription_info (franchise_of self) ext (world st)
        = (Return (VDict d), w1)
      ∧ d !! "status" = Some (VStr "active")
      ∧ d !! "id" = Some i ∧ i ≠ VNone
      ∧ calls_made (verify2 self md sid ext) st
        = [FranchiseGetUserSubscriptionInfo ext; CoreVerifySubscription i md].
Proof.
  pose proof (resolving_run self md sid ext st) as R.
  destruct (get_user_subscription_info _ ext (world st))
    as [[info|e] w1] eqn:F;
    [|left; apply calls_made_app; by rewrite R].
  destruct (is_none info) eqn:N;
    [left; apply calls_made_app; by rewrite R|].
  destruct (getitem info "status") as [status|e] eqn:S;
    [|left; apply calls_made_app; by rewrite R].
  destruct (py_ne status (VStr "active")) eqn:A;
    [left; apply calls_made_app; by rewrite R|].
  destruct (getitem info "id") as [i|e] eqn:I;
    [|left; apply calls_made_app; by rewrite R].
  destruct (is_none i) eqn:Ni;
    [left; apply calls_made_app; by rewrite R|].
  right.
  apply getitem_Return in S as (d & -> & Hs).
  apply getitem_Return in I as (d' & [= <-] & Hi).
  apply py_ne_active_false in A as ->.
  apply is_none_false in Ni.
  exists d, i, w1. repeat split; try done.
  apply calls_made_app. rewrite R.
  by destruct (verify_subscription _ i md w1).
Qed.

(* ===================================================================== *)
(** ** The resolving strategy *)
(* ===================================================================== *)

(** C1. When the franchise client answers an active record whose id [X] is
    present and not [None], [verify] calls the core client's
    [verify_subscription] exactly once, with [(X, metadata)], after exactly
    one call to the franchise client, and hands back what the core client
    returned or raised, unchanged. Conversely a core call appears in the log
    of a run only when the franchise client answered such a record. *)
Theorem resolving_success (self : VerifySubscriptionFranchise2.t W)
    (md sid ext : value) (st : state W) :
  (∀ (d : gmap string value) (X : value) (w1 : W),
     get_user_subscription_info (franchise_of self) ext (world st)
       = (Return (VDict d), w1) →
     d !! "status" = Some (VStr "active") →
     d !! "id" = Some X →
     X ≠ VNone →
     verify2 self md sid ext st
     = ((verify_subscription (core_of self) X md w1).1,
        mkState (verify_subscription (core_of self) X md w1).2
          (calls st ++ [FranchiseGetUserSubscriptionInfo ext;
                        CoreVerifySubscription X md])))
  ∧ (∀ ev, ev ∈ calls_made (verify2 self md sid ext) st →
       ev = FranchiseGetUserSubscriptionInfo ext
       ∨ ∃ (d : gmap string value) (X : value) (w1 : W),
           ev = CoreVerifySubscription X md
           ∧ get_user_subscription_info (franchise_of self) ext (world st)
             = (Return (VDict d), w1)
           ∧ d !! "status" = Some (VStr "active")
           ∧ d !! "id" = Some X
           ∧ X ≠ VNone).
Proof.
  split.
  - intros d X w1 F Hs Hi HX.
    rewrite resolving_run, F. simpl. rewrite Hs, Hi.
    replace (py_ne (VStr "active") (VStr "active")) with false by done.
    apply is_none_false in HX as ->.
    by destruct (verify_subscription _ X md w1).
  - intros ev Hev.
    destruct (resolving_calls self md sid ext st)
      as [E | (d & i & w1 & F & Hs & Hi & Hn & E)];
      rewrite E in Hev.
    + left. by apply list_elem_of_singleton in Hev.
    + apply elem_of_cons in Hev as [-> | Hev]; [by left|].
      apply list_elem_of_singleton in Hev as ->.
      right. by exists d, i, w1.
Qed.

(** C2, as the code has it. An active record whose id is present and
    [None] yields exactly the "Subscription id not found" result, while an
    active record without an id key makes the lookup raise [KeyError] on
    "id"; in both cases the franchise call is the only call made. *)
Theorem resolving_null_id (self : VerifySubscriptionFranchise2.t W)
    (md sid ext : value) (st : state W)
    (d : gmap string value) (w1 : W) :
  get_user_subscription_info (franchise_of self) ext (world st)
    = (Return (VDict d), w1) →
  d !! "status" = Some (VStr "active") →
  (d !! "id" = Some VNone →
     verify2 self md sid ext st
     = (Return VerifySubscriptionFranchise2.id_not_found, asked st ext w1))
  ∧ (d !! "id" = None →
     verify2 self md sid ext st = (Raise (KeyError "id"), asked st ext w1))
  ∧ (d !! "id" = Some VNone ∨ d !! "id" = None →
     calls_made (verify2 self md sid ext) st
     = [FranchiseGetUserSubscriptionInfo ext]).
Proof.
  intros F Hs.
  assert (verify_null : d !! "id" = Some VNone →
    verify2 self md sid ext st
    = (Return VerifySubscriptionFranchise2.id_not_found, asked st ext w1)).
  { intros Hi. rewrite resolving_run, F. simpl. by rewrite Hs, Hi. }
  assert (verify_absent : d !! "id" = None →
    verify2 self md sid ext st = (Raise (KeyError "id"), asked st ext w1)).
  { intros Hi. rewrite resolving_run, F. simpl. by rewrite Hs, Hi. }
  split; [done|split; [done|]].
  intros [Hi | Hi]; eapply calls_made_asked; eauto.
Qed.

(** C3. When the franchise client answers [None], [verify] returns exactly
    the "User subscription not found" result and the franchise call is the
    only call made. *)
Theorem resolving_not_found (self : VerifySubscriptionFranchise2.t W)
    (md sid ext : value) (st : state W) (w1 : W) :
  get_user_subscription_info (franchise_of self) ext (world st)
    = (Return VNone, w1) →
  verify2 self md sid ext st
  = (Return VerifySubscriptionFranchise2.not_found, asked st ext w1)
  ∧ calls_made (verify2 self md sid ext) st
    = [FranchiseGetUserSubscriptionInfo ext].
Proof.
  intros F.
  assert (verify2 self md sid ext st
          = (Return VerifySubscriptionFranchise2.not_found, asked st ext w1))
    as R by (by rewrite resolving_run, F).
  split; [done|]. by eapply calls_made_asked.
Qed.

(** C4. When the franchise client answers a record whose status is any
    object other than the string "active", [verify] returns exactly the
    "User subscription is not active" result and the franchise call is the
    only call made. *)
Theorem resolving_not_active (self : VerifySubscriptionFranchise2.t W)
    (md sid ext : value) (st : state W)
    (d : gmap string value) (status : value) (w1 : W) :
  get_user_subscription_info (franchise_of self) ext (world st)
    = (Return (VDict d), w1) →
  d !! "status" = Some status →
  status ≠ VStr "active" →
  verify2 self md sid ext st
  = (Return VerifySubscriptionFranchise2.not_active, asked st ext w1)
  ∧ calls_made (verify2 self md sid ext) st
    = [FranchiseGetUserSubscriptionInfo ext].
Proof.
  intros F Hs Hne.
  assert (verify2 self md sid ext st
          = (Return VerifySubscriptionFranchise2.not_active, asked st ext w1))
    as R.
  { rewrite resolving_run, F. simpl. rewrite Hs.
    apply py_ne_active in Hne. by rewrite Hne. }
  split; [done|]. by eapply calls_made_asked.
Qed.

(** C6. The three checks are tried in the order existence, active status,
    id presence, and the scan stops at the first one that does not pass:
    [verify] returns the error of the first failing check of
    [Policy.order], and only when none fails does it reach the core client.
    In particular a record whose status is not "active" yields the "User
    subscription is not active" result, whether or not its id is there and
    whatever it is. *)
Theorem resolving_check_order (self : VerifySubscriptionFranchise2.t W)
    (md sid ext : value) (st : state W) (info : value) (w1 : W) :
  get_user_subscription_info (franchise_of self) ext (world st)
    = (Return info, w1) →
  verify2 self md sid ext st
  = match Policy.first_failing Policy.order info with
    | Raise e => (Raise e, asked st ext w1)
    | Return (Some c) => (Return (Policy.error_of c), asked st ext w1)
    | Return None =>
        match getitem info "id" with
        | Raise e => (Raise e, asked st ext w1)
        | Return i =>
            ((verify_subscription (core_of self) i md w1).1,
             mkState (verify_subscription (core_of self) i md w1).2
               (calls st ++ [FranchiseGetUserSubscriptionInfo ext;
                             CoreVerifySubscription i md]))
        end
    end
  ∧ (Policy.fails Policy.Existence info = Return false →
     Policy.fails Policy.ActiveStatus info = Return true →
     verify2 self md sid ext st
     = (Return (Policy.error_of Policy.ActiveStatus), asked st ext w1)).
Proof.
  intros F.
  assert (scan : verify2 self md sid ext st
    = match Policy.first_failing Policy.order info with
      | Raise e => (Raise e, asked st ext w1)
      | Return (Some c) => (Return (Policy.error_of c), asked st ext w1)
      | Return None =>
          match getitem info "id" with
          | Raise e => (Raise e, asked st ext w1)
          | Return i =>
              ((verify_subscription (core_of self) i md w1).1,
               mkState (verify_subscription (core_of self) i md w1).2
                 (calls st ++ [FranchiseGetUserSubscriptionInfo ext;
                               CoreVerifySubscription i md]))
          end
      end).
  { rewrite resolving_run, F. simpl.
    destruct (is_none info); [done|].
    destruct (getitem info "status") as [status|e]; [|done].
    destruct (py_ne status (VStr "active")); [done|].
    destruct (getitem info "id") as [i|e]; [|done].
    destruct (is_none i); [done|].
    by destruct (verify_subscription _ i md w1). }
  split; [done|].
  intros [= N] A. rewrite resolving_run, F. simpl in *. rewrite N.
  destruct (getitem info "status") as [status|e]; [|done].
  by injection A as ->.
Qed.

(** C9. The two lookups are unguarded: a record without a status key makes
    [verify] raise [KeyError] on "status", and an active record without an
    id key makes it raise [KeyError] on "id", instead of returning one of
    the local error results; the franchise call is the only call made. *)
Theorem resolving_missing_key (self : VerifySubscriptionFranchise2.t W)
    (md sid ext : value) (st : state W)
    (d : gmap string value) (w1 : W) :
  get_user_subscription_info (franchise_of self) ext (world st)
    = (Return (VDict d), w1) →
  (d !! "status" = None →
     verify2 self md sid ext st
     = (Raise (KeyError "status"), asked st ext w1))
  ∧ (d !! "status" = Some (VStr "active") →
     d !! "id" = None →
     verify2 self md sid ext st = (Raise (KeyError "id"), asked st ext w1)).
Proof.
  intros F. split.
  - intros Hs. rewrite resolving_run, F. simpl. by rewrite Hs.
  - intros Hs Hi. rewrite resolving_run, F. simpl. by rewrite Hs, Hi.
Qed.

(** Runs of the resolving strategy that get the same answer from the
    franchise client end the same way. *)
Lemma resolving_same_answer (self : VerifySubscriptionFranchise2.t W)
    (md sid sid' ext ext' : value) (st st' : state W) :
  get_user_subscription_info (franchise_of self) ext (world st)
  = get_user_subscription_info (franchise_of self) ext' (world st') →
  (verify2 self md sid ext st).1 = (verify2 self md sid' ext' st').1
  ∧ world (verify2 self md sid ext st).2
    = world (verify2 self md sid' ext' st').2.
Proof.
  intros F. rewrite !resolving_run, <- F.
  destruct (get_user_subscription_info _ ext (world st)) as [[info|e] w1];
    [|done].
  destruct (is_none info); [done|].
  destruct (getitem info "status") as [status|e]; [|done].
  destruct (py_ne status (VStr "active")); [done|].
  destruct (getitem info "id") as [i|e]; [|done].
  destruct (is_none i); [done|].
  by destruct (verify_subscription _ i md w1).
Qed.

(** C10. The external id is handed to the franchise client as it is, with
    no guard: whatever it is ([None] included), the franchise call is the
    first call of the run and the only franchise call, and how the run ends
    is decided by the franchise client's answer alone. The
    [subscription_id] argument is never read. *)
Theorem resolving_external_id_unguarded
    (self : VerifySubscriptionFranchise2.t W)
    (md sid ext : value) (st : state W) :
  (∀ sid', verify2 self md sid ext st = verify2 self md sid' ext st)
  ∧ (∃ rest,
       calls_made (verify2 self md sid ext) st
         = FranchiseGetUserSubscriptionInfo ext :: rest
       ∧ ∀ e, FranchiseGetUserSubscriptionInfo e ∉ rest)
  ∧ (∀ sid' ext' st',
       get_user_subscription_info (franchise_of self) ext (world st)
       = get_user_subscription_info (franchise_of self) ext' (world st') →
       (verify2 self md sid ext st).1 = (verify2 self md sid' ext' st').1
       ∧ world (verify2 self md sid ext st).2
         = world (verify2 self md sid' ext' st').2).
Proof.
  split; [done|split].
  - destruct (resolving_calls self md sid ext st)
      as [E | (d & i & w1 & _ & _ & _ & _ & E)]; rewrite E.
    + exists []. split; [done|]. intros e. apply not_elem_of_nil.
    + exists [CoreVerifySubscription i md]. split; [done|].
      intros e He. by apply list_elem_of_singleton in He.
  - intros sid' ext' st'. apply resolving_same_answer.
Qed.

(* ===================================================================== *)
(** ** The direct strategy *)
(* ===================================================================== *)

(** What a run of the direct strategy does, in full. *)
Lemma direct_effect (self : VerifySubscriptionFranchise1.t W)
    (md sid ext : value) (st : state W) :
  verify1 self md sid ext st
  = ((verify_subscription (VerifySubscriptionFranchise1.core_api_client self)
        sid md (world st)).1,
     mkState
       (verify_subscription (VerifySubscriptionFranchise1.core_api_client self)
          sid md (world st)).2
       (calls st ++ [CoreVerifySubscription sid md])).
Proof.
  rewrite direct_run. by destruct (verify_subscription _ sid md (world st)).
Qed.

Lemma direct_calls (self : VerifySubscriptionFranchise1.t W)
    (md sid ext : value) (st : state W) :
  calls_made (verify1 self md sid ext) st = [CoreVerifySubscription sid md].
Proof.
  apply calls_made_app. by rewrite direct_effect.
Qed.

(** C5. The direct strategy calls the core client's [verify_subscription]
    exactly once, with [(subscription_id, metadata)] as received, and hands
    back what it returned or raised, unchanged; it makes no other call and
    inspects none of its arguments. *)
Theorem direct_forwards (self : VerifySubscriptionFranchise1.t W)
    (md sid ext : value) (st : state W) :
  verify1 self md sid ext st
  = ((verify_subscription (VerifySubscriptionFranchise1.core_api_client self)
        sid md (world st)).1,
     mkState
       (verify_subscription (VerifySubscriptionFranchise1.core_api_client self)
          sid md (world st)).2
       (calls st ++ [CoreVerifySubscription sid md]))
  ∧ calls_made (verify1 self md sid ext) st = [CoreVerifySubscription sid md].
Proof.
  split; [apply direct_effect | apply direct_calls].
Qed.

(** C7. [subscription_external_id] has no effect on the direct strategy:
    two calls that differ only in it return or raise the same, leave the
    same state and make the same single core call. *)
Theorem direct_ignores_external_id (self : VerifySubscriptionFranchise1.t W)
    (md sid ext ext' : value) (st : state W) :
  verify1 self md sid ext st = verify1 self md sid ext' st
  ∧ calls_made (verify1 self md sid ext) st
    = calls_made (verify1 self md sid ext') st
  ∧ calls_made (verify1 self md sid ext) st = [CoreVerifySubscription sid md].
Proof.
  split; [done|split; [done|]]. apply direct_calls.
Qed.

End Strategies.

(* ===================================================================== *)
(** ** Determinism *)
(* ===================================================================== *)

Section Determinism.

Context {W : Type}.

(** Against a deterministic core client the direct strategy ends the same
    way from any two states. *)
Lemma direct_any_state (self : VerifySubscriptionFranchise1.t W)
    (md sid ext : value) (st st' : state W) :
  deterministic_core (VerifySubscriptionFranchise1.core_api_client self) →
  (verify1 self md sid ext st).1 = (verify1 self md sid ext st').1.
Proof.
  intros Dc. rewrite !direct_effect. simpl. apply Dc.
Qed.

(** Against deterministic collaborators the resolving strategy ends the
    same way from any two states. *)
Lemma resolving_any_state (self : VerifySubscriptionFranchise2.t W)
    (md sid ext : value) (st st' : state W) :
  deterministic_core (core_of self) →
  deterministic_franchise (franchise_of self) →
  (verify2 self md sid ext st).1 = (verify2 self md sid ext st').1.
Proof.
  intros Dc Df. rewrite !resolving_run.
  specialize (Df ext (world st) (world st')).
  destruct (get_user_subscription_info _ ext (world st)) as [r w1].
  destruct (get_user_subscription_info _ ext (world st')) as [r' w1'].
  simpl in Df. subst r'.
  destruct r as [info|e]; [|done].
  destruct (is_none info); [done|].
  destruct (getitem info "status") as [status|e]; [|done].
  destruct (py_ne status (VStr "active")); [done|].
  destruct (getitem info "id") as [i|e]; [|done].
  destruct (is_none i); [done|].
  specialize (Dc i md w1 w1').
  destruct (verify_subscription _ i md w1) as [r2 w2].
  by destruct (verify_subscription _ i md w1') as [r2' w2'].
Qed.

(** C8. With deterministic collaborators both strategies are
    deterministic: the call issued after any number of earlier identical
    calls to the same strategy returns or raises exactly what the first one
    did. The strategies keep nothing between calls; only the collaborators'
    world and the call log move. *)
Theorem verify_repeatable
    (direct : VerifySubscriptionFranchise1.t W)
    (resolving : VerifySubscriptionFranchise2.t W)
    (md sid ext : value) (st : state W) (n : nat) :
  deterministic_core (VerifySubscriptionFranchise1.core_api_client direct) →
  deterministic_core (core_of resolving) →
  deterministic_franchise (franchise_of resolving) →
  (verify direct md sid ext
     (after_runs n (verify direct md sid ext) st)).1
  = (verify direct md sid ext st).1
  ∧ (verify resolving md sid ext
       (after_runs n (verify resolving md sid ext) st)).1
    = (verify resolving md sid ext st).1.
Proof.
  intros D1 D2 Df. split.
  - by apply direct_any_state.
  - by apply resolving_any_state.
Qed.

End Determinism.

(* ===================================================================== *)
(** ** The theorems at work on the stub collaborators *)
(* ===================================================================== *)

Lemma stub_core_deterministic : deterministic_core Stub.core.
Proof. by intros sid md w w'. Qed.

Lemma stub_franchise_deterministic : deterministic_franchise Stub.franchise.
Proof. by intros ext w w'. Qed.

(** The scenario of the specification: "ext-42" resolves to the active
    subscription "sub-7", which the core client accepts. *)
Lemma resolving_success_witness :
  verify2 Stub.resolving Stub.gold VNone (VStr "ext-42") Stub.start
  = (Return Stub.ok,
     mkState 2 [FranchiseGetUserSubscriptionInfo (VStr "ext-42");
                CoreVerifySubscription (VStr "sub-7") Stub.gold]).
Proof.
  apply (proj1 (resolving_success Stub.resolving Stub.gold VNone
                  (VStr "ext-42") Stub.start)
           (list_to_map [("status", VStr "active"); ("id", VStr "sub-7")])
           (VStr "sub-7") 1%nat).
  - reflexivity.
  - reflexivity.
  - reflexivity.
  - discriminate.
Defined.

(** An active record with a null id, and an active record with no id. *)
Lemma resolving_null_id_witness :
  verify2 Stub.resolving Stub.gold VNone (VStr "ext-null") Stub.start
  = (Return VerifySubscriptionFranchise2.id_not_found,
     mkState 1 [FranchiseGetUserSubscriptionInfo (VStr "ext-null")])
  ∧ verify2 Stub.resolving Stub.gold VNone (VStr "ext-noid") Stub.start
    = (Raise (KeyError "id"),
       mkState 1 [FranchiseGetUserSubscriptionInfo (VStr "ext-noid")]).
Proof.
  split.
  - apply (proj1 (resolving_null_id Stub.resolving Stub.gold VNone
                    (VStr "ext-null") Stub.start
                    (list_to_map [("status", VStr "active"); ("id", VNone)])
                    1%nat eq_refl eq_refl)).
    reflexivity.
  - apply (proj1 (proj2 (resolving_null_id Stub.resolving Stub.gold VNone
                    (VStr "ext-noid") Stub.start
                    (list_to_map [("status", VStr "active")])
                    1%nat eq_refl eq_refl))).
    reflexivity.
Defined.

(** The franchise client answers an active record that has no id key: the
    run ends with [KeyError], not with the "Subscription id not found"
    result that a null id gets. *)
Lemma resolving_absent_id_counterexample :
  let d : gmap string value := list_to_map [("status", VStr "active")] in
  get_user_subscription_info Stub.franchise (VStr "ext-noid")
    (world Stub.start) = (Return (VDict d), 1%nat)
  ∧ d !! "status" = Some (VStr "active")
  ∧ d !! "id" = None
  ∧ (verify2 Stub.resolving Stub.gold VNone (VStr "ext-noid") Stub.start).1
    = Raise (KeyError "id")
  ∧ (verify2 Stub.resolving Stub.gold VNone (VStr "ext-noid") Stub.start).1
    ≠ Return VerifySubscriptionFranchise2.id_not_found
  ∧ (verify2 Stub.resolving Stub.gold VNone (VStr "ext-noid") Stub.start).1
    ≠ (verify2 Stub.resolving Stub.gold VNone (VStr "ext-null") Stub.start).1.
Proof.
  repeat split; try reflexivity; discriminate.
Qed.

(** An external id the franchise client does not know. *)
Lemma resolving_not_found_witness :
  verify2 Stub.resolving Stub.gold VNone (VStr "ext-0") Stub.start
  = (Return VerifySubscriptionFranchise2.not_found,
     mkState 1 [FranchiseGetUserSubscriptionInfo (VStr "ext-0")])
  ∧ calls_made (verify2 Stub.resolving Stub.gold VNone (VStr "ext-0"))
      Stub.start
    = [FranchiseGetUserSubscriptionInfo (VStr "ext-0")].
Proof.
  apply (resolving_not_found Stub.resolving Stub.gold VNone (VStr "ext-0")
           Stub.start 1%nat).
  reflexivity.
Defined.

(** A cancelled subscription. *)
Lemma resolving_not_active_witness :
  verify2 Stub.resolving Stub.gold VNone (VStr "ext-cancelled") Stub.start
  = (Return VerifySubscriptionFranchise2.not_active,
     mkState 1 [FranchiseGetUserSubscriptionInfo (VStr "ext-cancelled")])
  ∧ calls_made (verify2 Stub.resolving Stub.gold VNone (VStr "ext-cancelled"))
      Stub.start
    = [FranchiseGetUserSubscriptionInfo (VStr "ext-cancelled")].
Proof.
  apply (resolving_not_active Stub.resolving Stub.gold VNone
           (VStr "ext-cancelled") Stub.start
           (list_to_map [("status", VStr "cancelled"); ("id", VNone)])
           (VStr "cancelled") 1%nat).
  - reflexivity.
  - reflexivity.
  - discriminate.
Defined.

Example resolving_expired :
  (verify2 Stub.resolving Stub.gold VNone (VStr "ext-expired") Stub.start).1
  = Return VerifySubscriptionFranchise2.not_active.
Proof. reflexivity. Qed.

Example resolving_blank_status :
  (verify2 Stub.resolving Stub.gold VNone (VStr "ext-blank") Stub.start).1
  = Return VerifySubscriptionFranchise2.not_active.
Proof. reflexivity. Qed.

(** A record that fails both the status check and the id check: the status
    check comes first and decides. *)
Lemma resolving_check_order_witness :
  let info := dict [("status", VStr "cancelled"); ("id", VNone)] in
  Policy.fails Policy.ActiveStatus info = Return true
  ∧ Policy.fails Policy.IdPresence info = Return true
  ∧ verify2 Stub.resolving Stub.gold VNone (VStr "ext-cancelled") Stub.start
    = (Return VerifySubscriptionFranchise2.not_active,
       mkState 1 [FranchiseGetUserSubscriptionInfo (VStr "ext-cancelled")]).
Proof.
  split; [reflexivity|split; [reflexivity|]].
  apply (proj2 (resolving_check_order Stub.resolving Stub.gold VNone
                  (VStr "ext-cancelled") Stub.start
                  (dict [("status", VStr "cancelled"); ("id", VNone)])
                  1%nat eq_refl)).
  - reflexivity.
  - reflexivity.
Defined.

(** Records with a missing key. *)
Lemma resolving_missing_key_witness :
  verify2 Stub.resolving Stub.gold VNone (VStr "ext-nostatus") Stub.start
  = (Raise (KeyError "status"),
     mkState 1 [FranchiseGetUserSubscriptionInfo (VStr "ext-nostatus")])
  ∧ verify2 Stub.resolving Stub.gold VNone (VStr "ext-noid") Stub.start
    = (Raise (KeyError "id"),
       mkState 1 [FranchiseGetUserSubscriptionInfo (VStr "ext-noid")]).
Proof.
  split.
  - apply (proj1 (resolving_missing_key Stub.resolving Stub.gold VNone
                    (VStr "ext-nostatus") Stub.start
                    (list_to_map [("id", VStr "sub-7")]) 1%nat eq_refl)).
    reflexivity.
  - apply (proj2 (resolving_missing_key Stub.resolving Stub.gold VNone
                    (VStr "ext-noid") Stub.start
                    (list_to_map [("status", VStr "active")]) 1%nat eq_refl)).
    + reflexivity.
    + reflexivity.
Defined.

(** [None] as external id is passed on like any other value; the stub
    answers it like an unknown id, so both runs end the same way. *)
Lemma resolving_external_id_unguarded_witness :
  calls_made (verify2 Stub.resolving Stub.gold VNone VNone) Stub.start
  = [FranchiseGetUserSubscriptionInfo VNone]
  ∧ (verify2 Stub.resolving Stub.gold VNone VNone Stub.start).1
    = (verify2 Stub.resolving Stub.gold (VStr "sub-7") (VStr "ext-0")
         Stub.start).1.
Proof.
  split; [reflexivity|].
  apply (proj2 (proj2 (resolving_external_id_unguarded Stub.resolving
                         Stub.gold VNone VNone Stub.start))
           (VStr "sub-7") (VStr "ext-0") Stub.start).
  reflexivity.
Defined.

(** The fourth call in a row answers like the first, for both strategies. *)
Lemma verify_repeatable_witness :
  (verify Stub.direct Stub.gold (VStr "sub-7") VNone
     (after_runs 3 (verify Stub.direct Stub.gold (VStr "sub-7") VNone)
        Stub.start)).1
  = Return Stub.ok
  ∧ (verify Stub.resolving Stub.gold VNone (VStr "ext-42")
       (after_runs 3 (verify Stub.resolving Stub.gold VNone (VStr "ext-42"))
          Stub.start)).1
    = Return Stub.ok.
Proof.
  pose proof (verify_repeatable Stub.direct Stub.resolving Stub.gold
                (VStr "sub-7") VNone Stub.start 3
                stub_core_deterministic stub_core_deterministic
                stub_franchise_deterministic) as [Hd _].
  pose proof (verify_repeatable Stub.direct Stub.resolving Stub.gold
                VNone (VStr "ext-42") Stub.start 3
                stub_core_deterministic stub_core_deterministic
                stub_franchise_deterministic) as [_ Hr].
  split.
  - rewrite Hd. reflexivity.
  - rewrite Hr. reflexivity.
Defined.

(* ===================================================================== *)
(** ** Further properties of the two strategies *)
(* ===================================================================== *)

Lemma local_errors_distinct :
  VerifySubscriptionFranchise2.not_found
    ≠ VerifySubscriptionFranchise2.not_active
  ∧ VerifySubscriptionFranchise2.not_found
    ≠ VerifySubscriptionFranchise2.id_not_found
  ∧ VerifySubscriptionFranchise2.not_active
    ≠ VerifySubscriptionFranchise2.id_not_found.
Proof.
  repeat split; intros E;
    apply (f_equal (λ v, getitem v "message")) in E; discriminate E.
Qed.

Section Further.

Context {W : Type}.

#[local] Set Warnings "-clear-no-such-hyp".

(** The log of a run extends the log it started from. *)
Lemma resolving_log_grows (self : VerifySubscriptionFranchise2.t W)
    (md sid ext : value) (st : state W) :
  calls (verify2 self md sid ext st).2
  = calls st ++ calls_made (verify2 self md sid ext) st.
Proof.
  unfold calls_made. rewrite resolving_run.
  destruct (get_user_subscription_info _ ext (world st)) as [[info|e] w1];
    [|simpl; by rewrite drop_app_length].
  destruct (is_none info); [simpl; by rewrite drop_app_length|].
  destruct (getitem info "status") as [status|e];
    [|simpl; by rewrite drop_app_length].
  destruct (py_ne status (VStr "active"));
    [simpl; by rewrite drop_app_length|].
  destruct (getitem info "id") as [i|e];
    [|simpl; by rewrite drop_app_length].
  destruct (is_none i); [simpl; by rewrite drop_app_length|].
  destruct (verify_subscription _ i md w1). simpl.
  by rewrite drop_app_length.
Qed.

(** X1. A failure of the franchise client is not caught: [verify] raises
    the very exception the franchise client raised, and the core client is
    not called. *)
Theorem resolving_franchise_failure (self : VerifySubscriptionFranchise2.t W)
    (md sid ext : value) (st : state W) (e : exn) (w1 : W) :
  get_user_subscription_info (franchise_of self) ext (world st)
    = (Raise e, w1) →
  verify2 self md sid ext st = (Raise e, asked st ext w1)
  ∧ calls_made (verify2 self md sid ext) st
    = [FranchiseGetUserSubscriptionInfo ext].
Proof.
  intros F.
  assert (verify2 self md sid ext st = (Raise e, asked st ext w1)) as R
    by (by rewrite resolving_run, F).
  split; [done|]. by eapply calls_made_asked.
Qed.

(** X2. An answer of the franchise client that is neither [None] nor a
    dictionary cannot be subscripted: [verify] raises [TypeError] at the
    status lookup and the core client is not called. *)
Theorem resolving_not_a_record (self : VerifySubscriptionFranchise2.t W)
    (md sid ext : value) (st : state W) (info : value) (w1 : W) :
  get_user_subscription_info (franchise_of self) ext (world st)
    = (Return info, w1) →
  info ≠ VNone →
  (∀ d, info ≠ VDict d) →
  verify2 self md sid ext st = (Raise TypeError, asked st ext w1)
  ∧ calls_made (verify2 self md sid ext) st
    = [FranchiseGetUserSubscriptionInfo ext].
Proof.
  intros F Hn Hd.
  assert (verify2 self md sid ext st = (Raise TypeError, asked st ext w1))
    as R.
  { rewrite resolving_run, F.
    destruct info; try done. by destruct (Hd d). }
  split; [done|]. by eapply calls_made_asked.
Qed.

(** X3. Neither strategy ever calls the core client's [get_user_core_info].
    The direct strategy makes exactly one collaborator call per run, the
    resolving strategy one or two, and earlier entries of the call log are
    left as they were. *)
Theorem strategies_call_budget
    (direct : VerifySubscriptionFranchise1.t W)
    (resolving : VerifySubscriptionFranchise2.t W)
    (md sid ext : value) (st : state W) :
  (∀ u, CoreGetUserCoreInfo u ∉ calls_made (verify1 direct md sid ext) st)
  ∧ (∀ u, CoreGetUserCoreInfo u ∉ calls_made (verify2 resolving md sid ext) st)
  ∧ length (calls_made (verify1 direct md sid ext) st) = 1%nat
  ∧ (1 ≤ length (calls_made (verify2 resolving md sid ext) st) ≤ 2)%nat
  ∧ calls (verify1 direct md sid ext st).2
    = calls st ++ calls_made (verify1 direct md sid ext) st
  ∧ calls (verify2 resolving md sid ext st).2
    = calls st ++ calls_made (verify2 resolving md sid ext) st.
Proof.
  rewrite direct_calls.
  split; [|split; [|split; [|split; [|split]]]].
  - intros u Hu. by apply list_elem_of_singleton in Hu.
  - intros u Hu.
    destruct (resolving_calls resolving md sid ext st)
      as [E | (d & i & w1 & _ & _ & _ & _ & E)]; rewrite E in Hu.
    + by apply list_elem_of_singleton in Hu.
    + apply elem_of_cons in Hu as [Hu | Hu]; [done|].
      by apply list_elem_of_singleton in Hu.
  - done.
  - destruct (resolving_calls resolving md sid ext st)
      as [E | (d & i & w1 & _ & _ & _ & _ & E)]; rewrite E; simpl; lia.
  - by rewrite direct_effect.
  - apply resolving_log_grows.
Qed.

(** X4. On its success path the resolving strategy is the franchise lookup
    followed by the direct strategy: once the franchise client has answered
    an active record with id [X], the rest of the run is a run of the direct
    strategy over the same core client on [(metadata, X)]. *)
Theorem resolving_is_lookup_then_direct
    (self : VerifySubscriptionFranchise2.t W)
    (md sid ext ext' : value) (st : state W)
    (d : gmap string value) (X : value) (w1 : W) :
  get_user_subscription_info (franchise_of self) ext (world st)
    = (Return (VDict d), w1) →
  d !! "status" = Some (VStr "active") →
  d !! "id" = Some X →
  X ≠ VNone →
  verify2 self md sid ext st
  = verify1 (VerifySubscriptionFranchise1.new (core_of self)) md X ext'
      (asked st ext w1).
Proof.
  intros F Hs Hi HX.
  rewrite resolving_run, direct_run, F. simpl. rewrite Hs, Hi.
  replace (py_ne (VStr "active") (VStr "active")) with false by done.
  apply is_none_false in HX as ->.
  destruct (verify_subscription _ X md w1). by rewrite <- app_assoc.
Qed.

(** X5. Of the franchise client's record only the entries under "status"
    and "id" are read: two resolving strategies over the same core client
    whose franchise clients answer records that agree on these two keys run
    identically, whatever else the records hold. *)
Theorem resolving_reads_status_and_id
    (self self' : VerifySubscriptionFranchise2.t W)
    (md sid ext : value) (st : state W)
    (d d' : gmap string value) (w1 : W) :
  core_of self = core_of self' →
  get_user_subscription_info (franchise_of self) ext (world st)
    = (Return (VDict d), w1) →
  get_user_subscription_info (franchise_of self') ext (world st)
    = (Return (VDict d'), w1) →
  d !! "status" = d' !! "status" →
  d !! "id" = d' !! "id" →
  verify2 self md sid ext st = verify2 self' md sid ext st.
Proof.
  intros C F F' Hs Hi.
  rewrite !resolving_run, F, F', <- C. simpl. by rewrite Hs, Hi.
Qed.

(** X6. When the core client was not called, the local error result tells
    which check failed: "not found" comes back exactly when the franchise
    client answered [None], "not active" exactly when it answered a record
    whose status is there and is not "active", and "id not found" exactly
    when it answered an active record whose id is there and is [None]. *)
Theorem resolving_error_diagnosis (self : VerifySubscriptionFranchise2.t W)
    (md sid ext : value) (st : state W) (info : value) (w1 : W) :
  get_user_subscription_info (franchise_of self) ext (world st)
    = (Return info, w1) →
  calls_made (verify2 self md sid ext) st
    = [FranchiseGetUserSubscriptionInfo ext] →
  ((verify2 self md sid ext st).1
     = Return VerifySubscriptionFranchise2.not_found
   ↔ info = VNone)
  ∧ ((verify2 self md sid ext st).1
       = Return VerifySubscriptionFranchise2.not_active
     ↔ ∃ d status, info = VDict d ∧ d !! "status" = Some status
                   ∧ status ≠ VStr "active")
  ∧ ((verify2 self md sid ext st).1
       = Return VerifySubscriptionFranchise2.id_not_found
     ↔ ∃ d, info = VDict d ∧ d !! "status" = Some (VStr "active")
            ∧ d !! "id" = Some VNone).
Proof.
  intros F Hc.
  destruct local_errors_distinct as (D1 & D2 & D3).
  pose proof (resolving_run self md sid ext st) as R. rewrite F in R.
  destruct info as [| b | z | s | u | d]; simpl in R;
    try (rewrite R; simpl; naive_solver).
  destruct (d !! "status") as [status|] eqn:Hs;
    [|rewrite R; simpl; naive_solver].
  destruct (py_ne status (VStr "active")) eqn:A.
  { apply py_ne_active in A. rewrite R. simpl. naive_solver. }
  apply py_ne_active_false in A as ->.
  destruct (d !! "id") as [i|] eqn:Hi; [|rewrite R; simpl; naive_solver].
  destruct (is_none i) eqn:N.
  { apply is_none_true in N as ->. rewrite R. simpl. naive_solver. }
  exfalso.
  assert (calls_made (verify2 self md sid ext) st
          = [FranchiseGetUserSubscriptionInfo ext;
             CoreVerifySubscription i md]) as E.
  { apply calls_made_app. rewrite R.
    by destruct (verify_subscription _ i md w1). }
  rewrite E in Hc. discriminate Hc.
Qed.

(** X7. The ways a run of the resolving strategy can end are these and no
    others: the franchise client's own exception; with an answer from the
    franchise client and no core call, one of the three local error results
    or [TypeError] or [KeyError] on "status" or on "id"; or, for an active
    record with an id other than [None], what the core client returned or
    raised. *)
Theorem resolving_outcomes (self : VerifySubscriptionFranchise2.t W)
    (md sid ext : value) (st : state W) :
  (∃ e w1,
     get_user_subscription_info (franchise_of self) ext (world st)
       = (Raise e, w1)
     ∧ verify2 self md sid ext st = (Raise e, asked st ext w1))
  ∨ (∃ info w1 o,
       get_user_subscription_info (franchise_of self) ext (world st)
         = (Return info, w1)
       ∧ verify2 self md sid ext st = (o, asked st ext w1)
       ∧ o ∈ [Return VerifySubscriptionFranchise2.not_found;
              Return VerifySubscriptionFranchise2.not_active;
              Return VerifySubscriptionFranchise2.id_not_found;
              Raise TypeError;
              Raise (KeyError "status");
              Raise (KeyError "id")])
  ∨ (∃ d X w1,
       get_user_subscription_info (franchise_of self) ext (world st)
         = (Return (VDict d), w1)
       ∧ d !! "status" = Some (VStr "active")
       ∧ d !! "id" = Some X
       ∧ X ≠ VNone
       ∧ verify2 self md sid ext st
         = ((verify_subscription (core_of self) X md w1).1,
            mkState (verify_subscription (core_of self) X md w1).2
              (calls st ++ [FranchiseGetUserSubscriptionInfo ext;
                            CoreVerifySubscription X md]))).
Proof.
  pose proof (resolving_run self md sid ext st) as R.
  destruct (get_user_subscription_info _ ext (world st))
    as [[info|e] w1] eqn:F; [|left; by exists e, w1].
  right.
  destruct info as [| b | z | s | u | d]; simpl in R;
    try (left; eexists _, w1, _; split; [done|split; [exact R|]];
         set_solver).
  destruct (d !! "status") as [status|] eqn:Hs;
    [|left; eexists _, w1, _; split; [done|split; [exact R|]]; set_solver].
  destruct (py_ne status (VStr "active")) eqn:A;
    [left; eexists _, w1, _; split; [done|split; [exact R|]]; set_solver|].
  apply py_ne_active_false in A as ->.
  destruct (d !! "id") as [i|] eqn:Hi;
    [|left; eexists _, w1, _; split; [done|split; [exact R|]]; set_solver].
  destruct (is_none i) eqn:N;
    [left; eexists _, w1, _; split; [done|split; [exact R|]]; set_solver|].
  right. exists d, i, w1. apply is_none_false in N.
  repeat split; try done.
  rewrite R. by destruct (verify_subscription _ i md w1).
Qed.

End Further.

(** The franchise client times out. *)
Lemma resolving_franchise_failure_witness :
  verify2 (Canned.resolving (Raise (UpstreamError "TimeoutError")))
    Stub.gold VNone (VStr "ext-42") Stub.start
  = (Raise (UpstreamError "TimeoutError"),
     mkState 1 [FranchiseGetUserSubscriptionInfo (VStr "ext-42")])
  ∧ calls_made
      (verify2 (Canned.resolving (Raise (UpstreamError "TimeoutError")))
         Stub.gold VNone (VStr "ext-42")) Stub.start
    = [FranchiseGetUserSubscriptionInfo (VStr "ext-42")].
Proof.
  apply (resolving_franchise_failure
           (Canned.resolving (Raise (UpstreamError "TimeoutError")))
           Stub.gold VNone (VStr "ext-42") Stub.start
           (UpstreamError "TimeoutError") 1%nat).
  reflexivity.
Defined.

(** The franchise client answers the bare string "active". *)
Lemma resolving_not_a_record_witness :
  verify2 (Canned.resolving (Return (VStr "active")))
    Stub.gold VNone (VStr "ext-42") Stub.start
  = (Raise TypeError,
     mkState 1 [FranchiseGetUserSubscriptionInfo (VStr "ext-42")])
  ∧ calls_made
      (verify2 (Canned.resolving (Return (VStr "active")))
         Stub.gold VNone (VStr "ext-42")) Stub.start
    = [FranchiseGetUserSubscriptionInfo (VStr "ext-42")].
Proof.
  apply (resolving_not_a_record (Canned.resolving (Return (VStr "active")))
           Stub.gold VNone (VStr "ext-42") Stub.start (VStr "active") 1%nat).
  - reflexivity.
  - discriminate.
  - intros d. discriminate.
Defined.

(** "ext-42" through the resolving strategy is "sub-7" through the direct
    one, started after the lookup. *)
Lemma resolving_is_lookup_then_direct_witness :
  verify2 Stub.resolving Stub.gold VNone (VStr "ext-42") Stub.start
  = verify1 Stub.direct Stub.gold (VStr "sub-7") VNone
      (mkState 1 [FranchiseGetUserSubscriptionInfo (VStr "ext-42")]).
Proof.
  apply (resolving_is_lookup_then_direct Stub.resolving Stub.gold VNone
           (VStr "ext-42") VNone Stub.start
           (list_to_map [("status", VStr "active"); ("id", VStr "sub-7")])
           (VStr "sub-7") 1%nat).
  - reflexivity.
  - reflexivity.
  - reflexivity.
  - discriminate.
Defined.

(** A record with extra fields runs like the plain one. *)
Lemma resolving_reads_status_and_id_witness :
  verify2 (Canned.resolving (Return Canned.verbose))
    Stub.gold VNone (VStr "ext-42") Stub.start
  = verify2 Stub.resolving Stub.gold VNone (VStr "ext-42") Stub.start.
Proof.
  apply (resolving_reads_status_and_id
           (Canned.resolving (Return Canned.verbose)) Stub.resolving
           Stub.gold VNone (VStr "ext-42") Stub.start
           (list_to_map [("status", VStr "active"); ("id", VStr "sub-7");
                         ("plan", VStr "gold"); ("renewals", VInt 3)])
           (list_to_map [("status", VStr "active"); ("id", VStr "sub-7")])
           1%nat).
  - reflexivity.
  - reflexivity.
  - reflexivity.
  - reflexivity.
  - reflexivity.
Defined.

(** From the "not active" result of a run without a core call one reads
    back that the record had a status other than "active". *)
Lemma resolving_error_diagnosis_witness :
  ∃ (d : gmap string value) (status : value),
    dict [("status", VStr "cancelled"); ("id", VNone)] = VDict d
    ∧ d !! "status" = Some status
    ∧ status ≠ VStr "active".
Proof.
  apply (proj1 (proj1 (proj2 (resolving_error_diagnosis Stub.resolving
                  Stub.gold VNone (VStr "ext-cancelled") Stub.start
                  (dict [("status", VStr "cancelled"); ("id", VNone)])
                  1%nat eq_refl eq_refl)))).
  reflexivity.
Defined.
